(** * GameCube Controller Enabler: input pipeline

    A shallow embedding of [gc_controller_enabler.py]: report decoding
    ([process_controller_data]), trigger calibration
    ([calibrate_trigger_fast], [calibrate_trigger]), the virtual Xbox 360
    sink update ([update_virtual_controller]) and the settings file
    ([load_settings]).

    Numbers.  Python [int] is [Z].  Python [float] is modelled by exact
    rational arithmetic ([Q]): every operation returns the exact difference,
    quotient or product, and [int()] truncates it toward zero.  What
    binary64 adds to this (rounding, NaN, the infinities, overflow) is
    outside the model.  The module [Binary64] transcribes the arithmetic
    lines a second time on the kernel's binary64 floats, and the last
    section proves that the two agree, bit for bit, on every trigger byte
    under every profile of whole-number breakpoints in the byte range, and
    on every 12-bit stick sample. *)

From stdpp Require Import gmap strings list.
From Stdlib Require Import QArith Qround Qminmax Lqa ZArith Floats Uint63.

Set Warnings "-register-all".
Local Open Scope Z_scope.

(** ** Python runtime values *)

(** What [json.load] can produce and what the calibration dictionary may
    hold.  JSON integers and JSON reals are both [VNum]. *)
Inductive pyval : Type :=
| VNone
| VBool (b : bool)
| VNum (q : Q)
| VStr (s : string)
| VList (items : list pyval)
| VDict (members : list (string * pyval)).

Inductive exn : Type :=
| KeyError (key : string)
| TypeError
| ZeroDivisionError
| AttributeError (attr : string)
| JSONDecodeError.

(** A call either returns a value or raises. *)
Inductive result (A : Type) : Type :=
| Return (a : A)
| Raise (e : exn).
Arguments Return {A} a.
Arguments Raise {A} e.

#[global] Instance result_ret : MRet result := @Return.
#[global] Instance result_bind : MBind result :=
  λ A B f m, match m with Return a => f a | Raise e => Raise e end.

(** [bool(v)] *)
Definition truthy (v : pyval) : bool :=
  match v with
  | VNone => false
  | VBool b => b
  | VNum q => negb (Qeq_bool q 0)
  | VStr s => negb (String.eqb s "")
  | VList items => match items with [] => false | _ => true end
  | VDict members => match members with [] => false | _ => true end
  end.

(** The operand of an arithmetic operator: numbers, and [bool] as 0 or 1. *)
Definition as_number (v : pyval) : result Q :=
  match v with
  | VNum q => Return q
  | VBool b => Return (if b then 1%Q else 0%Q)
  | _ => Raise TypeError
  end.

(** [a - b] *)
Definition py_sub (a b : pyval) : result Q :=
  x ← as_number a; y ← as_number b; Return (x - y)%Q.

(** [a < b] and [a <= b] on numbers *)
Definition Qltb (a b : Q) : bool := Qnum a * QDen b <? Qnum b * QDen a.
Definition Qleb (a b : Q) : bool := Qle_bool a b.

(** [a / b]: true division, [ZeroDivisionError] on a zero divisor *)
Definition py_truediv (a b : Q) : result Q :=
  if Qeq_bool b 0 then Raise ZeroDivisionError else Return (a / b)%Q.

(** [int(x)]: truncation toward zero *)
Definition py_int (x : Q) : Z := Z.quot (Qnum x) (QDen x).

(** [round(x)]: to the nearest integer, ties to the even one *)
Definition py_round (x : Q) : Z :=
  let f := Qfloor x in
  let twice := (2 * (x - inject_Z f))%Q in
  if Qltb twice 1 then f
  else if Qltb 1 twice then f + 1
  else if Z.even f then f else f + 1.

(** [min(a, b)] and [max(a, b)]: the first argument unless the second is
    strictly smaller (larger). *)
Definition py_min (a b : Q) : Q := if Qltb b a then b else a.
Definition py_max (a b : Q) : Q := if Qltb a b then b else a.

(** [d[k]] on a dictionary with string keys *)
Definition getitem {V} (d : gmap string V) (k : string) : result V :=
  match d !! k with
  | Some v => Return v
  | None => Raise (KeyError k)
  end.

(** [d.get(k, default)] *)
Definition dict_get {V} (d : gmap string V) (k : string) (default : V) : V :=
  match d !! k with
  | Some v => v
  | None => default
  end.


(** ** The application object *)

(** [class ButtonInfo] *)
Record ButtonInfo : Type := mkButtonInfo {
  byte_index : nat;
  mask : Z;
  name : string
}.

(** [self.buttons]: the button mapping of the GameCube controller *)
Definition buttons : list ButtonInfo := [
  mkButtonInfo 3 0x01 "B";
  mkButtonInfo 3 0x02 "A";
  mkButtonInfo 3 0x04 "Y";
  mkButtonInfo 3 0x08 "X";
  mkButtonInfo 3 0x10 "R";
  mkButtonInfo 3 0x20 "Z";
  mkButtonInfo 3 0x40 "Start/Pause";
  mkButtonInfo 4 0x01 "Dpad Down";
  mkButtonInfo 4 0x02 "Dpad Right";
  mkButtonInfo 4 0x04 "Dpad Left";
  mkButtonInfo 4 0x08 "Dpad Up";
  mkButtonInfo 4 0x10 "L";
  mkButtonInfo 4 0x20 "ZL";
  mkButtonInfo 5 0x01 "Home";
  mkButtonInfo 5 0x02 "Capture";
  mkButtonInfo 5 0x04 "GR";
  mkButtonInfo 5 0x08 "GL";
  mkButtonInfo 5 0x10 "Chat"
].

(** [self.calibration] as [__init__] sets it, before [load_settings] *)
Definition default_calibration : gmap string pyval :=
  <["emulation_mode" := VStr "xbox360"]>
  (<["bump_100_percent" := VBool true]>
  (<["right_max" := VNum 230]>
  (<["right_bump" := VNum 190]>
  (<["right_base" := VNum 32]>
  (<["left_max" := VNum 230]>
  (<["left_bump" := VNum 190]>
  (<["left_base" := VNum 32]> ∅))))))).

(** [vg.XUSB_BUTTON], the members the program uses *)
Inductive XUSB_BUTTON : Type :=
| XUSB_GAMEPAD_A
| XUSB_GAMEPAD_B
| XUSB_GAMEPAD_X
| XUSB_GAMEPAD_Y
| XUSB_GAMEPAD_RIGHT_SHOULDER
| XUSB_GAMEPAD_LEFT_SHOULDER
| XUSB_GAMEPAD_START
| XUSB_GAMEPAD_GUIDE
| XUSB_GAMEPAD_BACK
| XUSB_GAMEPAD_DPAD_UP
| XUSB_GAMEPAD_DPAD_DOWN
| XUSB_GAMEPAD_DPAD_LEFT
| XUSB_GAMEPAD_DPAD_RIGHT.

(** The calls a [vg.VX360Gamepad] receives.  The virtual pad is modelled by
    the sequence of calls made on it, oldest first; the calls themselves are
    taken not to raise. *)
Inductive sink_call : Type :=
| left_joystick (x_value y_value : Z)
| right_joystick (x_value y_value : Z)
| press_button (button : XUSB_BUTTON)
| release_button (button : XUSB_BUTTON)
| left_trigger (value : Z)
| right_trigger (value : Z)
| update
| reset.

Inductive canvas : Type := left_stick_canvas | right_stick_canvas.

(** The callbacks handed to [self.root.after(0, ...)] *)
Inductive ui_call : Type :=
| update_stick_position (c : canvas) (x_norm y_norm : Q)
| update_trigger_display (left_trigger right_trigger : Z)
| update_button_display (button_states : gmap string bool).

(** The attributes of [GCControllerEnabler] the input pipeline reads or
    writes.  An attribute that may not exist yet ([hasattr]) is an option. *)
Record GCControllerEnabler : Type := mkGCControllerEnabler {
  calibration : gmap string pyval;
  _cached_calibration : option (gmap string pyval);
  is_emulating : bool;
  gamepad : option (list sink_call);
  _ui_update_counter : option Z;
  after_queue : list ui_call;
  printed : list (string * exn)
}.

Definition set_cached_calibration (c : gmap string pyval) (self : GCControllerEnabler)
  : GCControllerEnabler :=
  mkGCControllerEnabler (calibration self) (Some c) (is_emulating self) (gamepad self)
        (_ui_update_counter self) (after_queue self) (printed self).
(** one call on [self.gamepad] *)
Definition call_gamepad (c : sink_call) (self : GCControllerEnabler)
  : GCControllerEnabler :=
  mkGCControllerEnabler (calibration self) (_cached_calibration self) (is_emulating self)
        ((λ calls, calls ++ [c]) <$> gamepad self)
        (_ui_update_counter self) (after_queue self) (printed self).
(** [print(f"{msg}: {e}")] *)
Definition print (msg : string) (e : exn) (self : GCControllerEnabler)
  : GCControllerEnabler :=
  mkGCControllerEnabler (calibration self) (_cached_calibration self) (is_emulating self)
        (gamepad self) (_ui_update_counter self) (after_queue self)
        (printed self ++ [(msg, e)]).

(** ** Trigger calibration *)

Section Calibration.

(** The [/] of the Python runtime.  The two functions below are written
    against an arbitrary one, so that a statement can say that a call does
    not reach the division; the program runs them with [py_truediv]. *)
Variable truediv : Q → Q → result Q.

(** [calibrate_trigger_fast(self, raw_value, side)], lines 651-670 *)
Definition calibrate_trigger_fast
    (self : GCControllerEnabler) (raw_value : Z) (side : string) : result Z :=
  cached ← match _cached_calibration self with
           | Some d => Return d
           | None => Raise (AttributeError "_cached_calibration")
           end;
  base ← getitem cached (side +:+ "_base");
  bump ← getitem cached (side +:+ "_bump");
  max_val ← getitem cached (side +:+ "_max");
  calibrated ← py_sub (VNum (inject_Z raw_value)) base;
  let calibrated := if Qltb calibrated 0 then 0%Q else calibrated in
  flag ← getitem cached "bump_100_percent";
  range_val ← (if truthy flag then py_sub bump base else py_sub max_val base);
  if Qleb range_val 0 then Return 0
  else
    ratio ← truediv calibrated range_val;
    let result := py_int (ratio * 255) in
    Return (Z.max 0 (Z.min 255 result)).

(** [calibrate_trigger(self, raw_value, side)], lines 672-694 *)
Definition calibrate_trigger
    (self : GCControllerEnabler) (raw_value : Z) (side : string) : result Z :=
  base ← getitem (calibration self) (side +:+ "_base");
  bump ← getitem (calibration self) (side +:+ "_bump");
  max_val ← getitem (calibration self) (side +:+ "_max");
  calibrated ← py_sub (VNum (inject_Z raw_value)) base;
  let calibrated := if Qltb calibrated 0 then 0%Q else calibrated in
  flag ← getitem (calibration self) "bump_100_percent";
  range_val ← (if truthy flag then py_sub bump base else py_sub max_val base);
  if Qleb range_val 0 then Return 0
  else
    ratio ← truediv calibrated range_val;
    let result := py_int (ratio * 255) in
    Return (Z.max 0 (Z.min 255 result)).

End Calibration.

(** ** The virtual controller *)

(** [button_mapping] of [update_virtual_controller], in the order of the
    dictionary display, which is the order [items()] yields. *)
Definition button_mapping : list (string * XUSB_BUTTON) := [
  ("A", XUSB_GAMEPAD_A);
  ("B", XUSB_GAMEPAD_B);
  ("X", XUSB_GAMEPAD_X);
  ("Y", XUSB_GAMEPAD_Y);
  ("Z", XUSB_GAMEPAD_RIGHT_SHOULDER);
  ("ZL", XUSB_GAMEPAD_LEFT_SHOULDER);
  ("Start/Pause", XUSB_GAMEPAD_START);
  ("Home", XUSB_GAMEPAD_GUIDE);
  ("Capture", XUSB_GAMEPAD_BACK);
  ("Chat", XUSB_GAMEPAD_BACK);
  ("Dpad Up", XUSB_GAMEPAD_DPAD_UP);
  ("Dpad Down", XUSB_GAMEPAD_DPAD_DOWN);
  ("Dpad Left", XUSB_GAMEPAD_DPAD_LEFT);
  ("Dpad Right", XUSB_GAMEPAD_DPAD_RIGHT)
].

(** [int(max(-32767, min(32767, x * stick_scale)))] with [stick_scale = 32767] *)
Definition stick_scaled (x : Q) : Z :=
  py_int (py_max (-32767) (py_min 32767 (x * 32767))).

(** Lines 599-600: [self._cached_calibration = self.calibration.copy()]
    when the attribute does not exist yet *)
Definition ensure_cached (self : GCControllerEnabler) : GCControllerEnabler :=
  match _cached_calibration self with
  | None => set_cached_calibration (calibration self) self
  | Some _ => self
  end.

(** The loop over [button_mapping.items()] *)
Definition update_button_states
    (button_states : gmap string bool) (self : GCControllerEnabler)
  : GCControllerEnabler :=
  foldl (λ self entry,
           if dict_get button_states entry.1 false
           then call_gamepad (press_button entry.2) self
           else call_gamepad (release_button entry.2) self)
        self button_mapping.

(** [update_virtual_controller], lines 581-649.  The body of the [try] runs
    until a call raises; the calls made on the pad up to then stay made. *)
Definition update_virtual_controller
    (self : GCControllerEnabler) (left_x left_y right_x right_y : Q)
    (left_trigger_raw right_trigger_raw : Z) (button_states : gmap string bool)
  : GCControllerEnabler :=
  match gamepad self with
  | None => self
  | Some _ =>
    let self := call_gamepad
                  (left_joystick (stick_scaled left_x) (stick_scaled left_y)) self in
    let self := call_gamepad
                  (right_joystick (stick_scaled right_x) (stick_scaled right_y)) self in
    let self := ensure_cached self in
    match calibrate_trigger_fast py_truediv self left_trigger_raw "left" with
    | Raise e => print "Virtual controller update error" e self
    | Return left_trigger_calibrated =>
      match calibrate_trigger_fast py_truediv self right_trigger_raw "right" with
      | Raise e => print "Virtual controller update error" e self
      | Return right_trigger_calibrated =>
        let self := update_button_states button_states self in
        let l_pressed := dict_get button_states "L" false in
        let r_pressed := dict_get button_states "R" false in
        let self := if l_pressed then call_gamepad (left_trigger 255) self
                    else call_gamepad (left_trigger left_trigger_calibrated) self in
        let self := if r_pressed then call_gamepad (right_trigger 255) self
                    else call_gamepad (right_trigger right_trigger_calibrated) self in
        call_gamepad update self
      end
    end
  end.

(** ** Report decoding *)

(** The local variables [process_controller_data] computes from one report *)
Record InputFrame : Type := mkInputFrame {
  left_stick_x : Z;
  left_stick_y : Z;
  right_stick_x : Z;
  right_stick_y : Z;
  left_x_norm : Q;
  left_y_norm : Q;
  right_x_norm : Q;
  right_y_norm : Q;
  button_states : gmap string bool;
  left_trigger_value : Z;
  right_trigger_value : Z
}.

(** [data[i]] for an index the length test has already admitted *)
Definition byte_at (data : list Z) (i : nat) : Z := data !!! i.

(** [(raw - 2048) / 2048.0] *)
Definition stick_norm (raw : Z) : Q := (inject_Z (raw - 2048) / 2048)%Q.

(** One turn of the loop over [self.buttons], lines 469-471 *)
Definition read_button
    (data : list Z) (states : gmap string bool) (button : ButtonInfo)
  : gmap string bool :=
  if (byte_index button <? length data)%nat
  then <[name button :=
           negb (Z.land (byte_at data (byte_index button)) (mask button) =? 0)]>
         states
  else states.

(** The loop, from the empty [button_states], lines 467-471 *)
Definition read_buttons (data : list Z) : gmap string bool :=
  foldl (read_button data) ∅ buttons.

(** Lines 451-475 of [process_controller_data]: [None] is the early
    [return] on a report of fewer than 15 bytes. *)
Definition decode_report (data : list Z) : option InputFrame :=
  if (length data <? 15)%nat then None
  else
    let left_stick_x :=
      Z.lor (byte_at data 6) (Z.shiftl (Z.land (byte_at data 7) 0x0F) 8) in
    let left_stick_y :=
      Z.lor (Z.shiftr (byte_at data 7) 4) (Z.shiftl (byte_at data 8) 4) in
    let right_stick_x :=
      Z.lor (byte_at data 9) (Z.shiftl (Z.land (byte_at data 10) 0x0F) 8) in
    let right_stick_y :=
      Z.lor (Z.shiftr (byte_at data 10) 4) (Z.shiftl (byte_at data 11) 4) in
    Some {|
      left_stick_x := left_stick_x;
      left_stick_y := left_stick_y;
      right_stick_x := right_stick_x;
      right_stick_y := right_stick_y;
      left_x_norm := stick_norm left_stick_x;
      left_y_norm := stick_norm left_stick_y;
      right_x_norm := stick_norm right_stick_x;
      right_y_norm := stick_norm right_stick_y;
      button_states := read_buttons data;
      left_trigger_value := if (13 <? length data)%nat then byte_at data 13 else 0;
      right_trigger_value := if (14 <? length data)%nat then byte_at data 14 else 0
    |}.


(** ** The settings file *)






(** ** The specification's formulas *)

(** A calibration profile for one side, as the specification names it *)
Record CalibrationProfile : Type := mkProfile {
  base : Q;
  bump : Q;
  max_val : Q;
  bump_100_percent : bool
}.

(** The dictionary [d] holds the profile [p] for [side]. *)
Definition holds_profile
    (d : gmap string pyval) (side : string) (p : CalibrationProfile) : Prop :=
  d !! (side +:+ "_base") = Some (VNum (base p)) ∧
  d !! (side +:+ "_bump") = Some (VNum (bump p)) ∧
  d !! (side +:+ "_max") = Some (VNum (max_val p)) ∧
  d !! "bump_100_percent" = Some (VBool (bump_100_percent p)).

(** The range the mode selects: [bump - base] under bump100, [max - base]
    otherwise. *)
Definition selected_range (p : CalibrationProfile) : Q :=
  if bump_100_percent p then (bump p - base p)%Q else (max_val p - base p)%Q.

(** In the specification's words: [shifted = max(0, raw - base)], the
    selected range, 0 when the range is not positive, else
    [to_int(shifted / range * 255)] clamped to [0,255].  The specification
    takes [round] for [to_int]. *)
Definition spec_calibrate
    (to_int : Q → Z) (raw : Z) (p : CalibrationProfile) : Z :=
  let shifted := Qmax 0 (inject_Z raw - base p) in
  let range := selected_range p in
  if Qleb range 0 then 0
  else Z.max 0 (Z.min 255 (to_int (shifted / range * 255)%Q)).

(** In the specification's words: [to_int(clamp(norm, -1, 1) * 32767)] *)
Definition spec_stick_scaled (to_int : Q → Z) (norm : Q) : Z :=
  to_int (Qmax (-1) (Qmin 1 norm) * 32767)%Q.

(** The press and release calls of one update, in the order of
    [button_mapping] *)
Definition button_calls (button_states : gmap string bool) : list sink_call :=
  map (λ entry, if dict_get button_states entry.1 false
                then press_button entry.2 else release_button entry.2)
      button_mapping.



(** The calls of one complete update: the two sticks, the buttons, the two
    triggers with the values [lv] and [rv], and the commit. *)
Definition pushed_calls
    (left_x left_y right_x right_y : Q) (lv rv : Z)
    (button_states : gmap string bool) : list sink_call :=
  [left_joystick (stick_scaled left_x) (stick_scaled left_y);
   right_joystick (stick_scaled right_x) (stick_scaled right_y)]
  ++ button_calls button_states
  ++ [left_trigger lv; right_trigger rv; update].



(** In the specification's words: the two 12-bit samples that share the
    middle byte, at offset [b]. *)
Definition spec_stick_x_raw (report : list Z) (b : nat) : Z :=
  Z.lor (report !!! b) (Z.shiftl (Z.land (report !!! (b + 1)%nat) 0x0F) 8).
Definition spec_stick_y_raw (report : list Z) (b : nat) : Z :=
  Z.lor (Z.shiftr (report !!! (b + 1)%nat) 4) (Z.shiftl (report !!! (b + 2)%nat) 4).

(** ** The same arithmetic on binary64 *)

Module Binary64.

(** [float(n)] for a small integer *)
Definition of_int (n : Z) : float :=
  if n <? 0 then PrimFloat.opp (PrimFloat.of_uint63 (Uint63.of_Z (- n)))
  else PrimFloat.of_uint63 (Uint63.of_Z n).

(** [int(x)]: [None] where Python raises, on an infinity or a NaN *)
Definition int_of (x : float) : option Z :=
  match Prim2SF x with
  | S754_zero _ => Some 0
  | S754_finite negative m e =>
      let magnitude := match e with
                       | Z0 => Z.pos m
                       | Z.pos k => Z.pos m * 2 ^ Z.pos k
                       | Z.neg k => Z.pos m / 2 ^ Z.pos k
                       end in
      Some (if negative then - magnitude else magnitude)
  | _ => None
  end.

(** Lines 657-670 on floats *)
Definition calibrate (raw_value : Z) (base bump max_val : float) (bump100 : bool)
  : option Z :=
  let calibrated := PrimFloat.sub (of_int raw_value) base in
  let calibrated := if PrimFloat.ltb calibrated 0 then 0%float else calibrated in
  let range_val := if bump100 then PrimFloat.sub bump base
                   else PrimFloat.sub max_val base in
  if PrimFloat.leb range_val 0 then Some 0
  else
    match int_of (PrimFloat.mul (PrimFloat.div calibrated range_val) 255) with
    | Some result => Some (Z.max 0 (Z.min 255 result))
    | None => None
    end.

(** Line 461 on floats *)
Definition stick_norm (raw : Z) : float :=
  PrimFloat.div (of_int (raw - 2048)) 2048.

(** Line 590 on floats; [max] and [min] keep their first argument unless
    the second compares strictly beyond it. *)
Definition stick_scaled (x : float) : option Z :=
  let v := PrimFloat.mul x 32767 in
  let lo := if PrimFloat.ltb v 32767 then v else 32767%float in
  let hi := if PrimFloat.ltb (-32767) lo then lo else (-32767)%float in
  int_of hi.

(** Equality of two results of [int_of], as a test *)
Definition same_result (a b : option Z) : bool :=
  match a, b with
  | Some x, Some y => x =? y
  | None, None => true
  | _, _ => false
  end.

End Binary64.

(** The profile of whole-number breakpoints [b], [u] and [m] *)
Definition whole_profile (b u m : Z) (mode : bool) : CalibrationProfile :=
  mkProfile (inject_Z b) (inject_Z u) (inject_Z m) mode.

(** ** A running instance *)

(** The application started without a settings file, with emulation switched
    on ([start_emulation]) and the calibration cached by a first update. *)
Definition emulating_app : GCControllerEnabler :=
  {| calibration := default_calibration;
     _cached_calibration := Some default_calibration;
     is_emulating := true;
     gamepad := Some [];
     _ui_update_counter := None;
     after_queue := [];
     printed := [] |}.

(** The default profile of either side *)
Definition default_profile : CalibrationProfile := mkProfile 32 190 230 true.



(** A report with only B held, and one with both sticks at rest
    (both samples 2048) and the left trigger at 110 *)
Definition report_B : list Z := [0; 0; 0; 0x01; 0; 0; 0; 0; 0; 0; 0; 0; 0; 0; 0].
Definition report_rest : list Z :=
  [0; 0; 0; 0; 0; 0; 0x00; 0x08; 0x80; 0x00; 0x08; 0x80; 0; 110; 0].


(** * Properties *)

(** ** Comparisons and [int()] on exact numbers *)

Lemma Qltb_lt a b : Qltb a b = true ↔ (a < b)%Q.
Proof. unfold Qltb, Qlt. apply Z.ltb_lt. Qed.

Lemma Qltb_ge a b : Qltb a b = false ↔ (b <= a)%Q.
Proof. unfold Qltb, Qle. rewrite Z.ltb_ge. reflexivity. Qed.

Lemma Qleb_le a b : Qleb a b = true ↔ (a <= b)%Q.
Proof. apply Qle_bool_iff. Qed.

Lemma Qleb_gt a b : Qleb a b = false ↔ (b < a)%Q.
Proof. unfold Qleb, Qle_bool, Qlt. rewrite Z.leb_gt. reflexivity. Qed.

(** Truncation is the floor of a number that is not negative and the
    ceiling of one that is not positive. *)
Lemma py_int_nonneg x : (0 <= x)%Q → py_int x = Qfloor x.
Proof.
  destruct x as [n d]. unfold py_int, Qfloor, Qle. simpl. intros H.
  apply Z.quot_div_nonneg; lia.
Qed.

Lemma py_int_nonpos x : (x <= 0)%Q → py_int x = Qceiling x.
Proof.
  destruct x as [n d]. unfold py_int, Qceiling, Qfloor, Qle. simpl. intros H.
  rewrite <- (Z.opp_involutive n) at 1. rewrite Z.quot_opp_l by lia.
  f_equal. apply Z.quot_div_nonneg; lia.
Qed.

(** [int()] does not see which fraction represents a number. *)
#[global] Instance py_int_comp : Proper (Qeq ==> eq) py_int.
Proof.
  intros x y E. destruct (Qlt_le_dec x 0) as [L|L].
  - rewrite !py_int_nonpos by (rewrite <- ?E; lra). by rewrite E.
  - rewrite !py_int_nonneg by (rewrite <- ?E; lra). by rewrite E.
Qed.

Lemma py_int_mono x y : (x <= y)%Q → py_int x ≤ py_int y.
Proof.
  intros L. destruct (Qlt_le_dec x 0) as [X|X], (Qlt_le_dec y 0) as [Y|Y].
  - rewrite !py_int_nonpos by lra. by apply Qceiling_resp_le.
  - rewrite (py_int_nonpos x), (py_int_nonneg y) by lra.
    transitivity 0.
    + change 0 with (Qceiling 0). apply Qceiling_resp_le. lra.
    + change 0 with (Qfloor 0). by apply Qfloor_resp_le.
  - lra.
  - rewrite !py_int_nonneg by lra. by apply Qfloor_resp_le.
Qed.

Lemma py_min_Qmin a b : (py_min a b == Qmin a b)%Q.
Proof.
  unfold py_min. destruct (Qltb b a) eqn:E.
  - apply Qltb_lt in E. rewrite Q.min_r; [reflexivity | lra].
  - apply Qltb_ge in E. by rewrite Q.min_l.
Qed.

Lemma py_max_Qmax a b : (py_max a b == Qmax a b)%Q.
Proof.
  unfold py_max. destruct (Qltb a b) eqn:E.
  - apply Qltb_lt in E. rewrite Q.max_r; [reflexivity | lra].
  - apply Qltb_ge in E. by rewrite Q.max_l.
Qed.


(** ** The formula of the calibration *)

Section SpecCalibrate.
Context (p : CalibrationProfile).

Lemma spec_calibrate_bounds to_int raw : 0 ≤ spec_calibrate to_int raw p ≤ 255.
Proof. unfold spec_calibrate. destruct (Qleb _ 0); lia. Qed.

Lemma spec_calibrate_degenerate to_int raw :
  (selected_range p <= 0)%Q → spec_calibrate to_int raw p = 0.
Proof. intros H. unfold spec_calibrate. apply Qleb_le in H. by rewrite H. Qed.

Lemma scaled_mono (s1 s2 range : Q) :
  (0 < range)%Q → (s1 <= s2)%Q → (s1 / range * 255 <= s2 / range * 255)%Q.
Proof.
  intros Hr Hs. apply Qmult_le_compat_r; [|lra].
  unfold Qdiv. apply Qmult_le_compat_r; [done|].
  apply Qinv_le_0_compat. lra.
Qed.

Lemma spec_calibrate_mono r1 r2 :
  r1 ≤ r2 → spec_calibrate py_int r1 p ≤ spec_calibrate py_int r2 p.
Proof.
  intros Hr. unfold spec_calibrate.
  destruct (Qleb (selected_range p) 0) eqn:E; [lia|]. apply Qleb_gt in E.
  apply Z.max_le_compat_l, Z.min_le_compat_l, py_int_mono, scaled_mono; [done|].
  apply Q.max_le_compat_l. rewrite Zle_Qle in Hr. lra.
Qed.

Lemma spec_calibrate_below_base r :
  (inject_Z r <= base p)%Q → spec_calibrate py_int r p = 0.
Proof.
  intros Hr. unfold spec_calibrate.
  destruct (Qleb (selected_range p) 0) eqn:E; [done|]. apply Qleb_gt in E.
  assert (Qmax 0 (inject_Z r - base p) / selected_range p * 255 == 0)%Q as ->.
  { rewrite Q.max_l by lra. unfold Qdiv. ring. }
  reflexivity.
Qed.

End SpecCalibrate.

(** ** Trigger calibration *)





(** The call reads nothing of [self] but the cached dictionary. *)
Lemma calibrate_trigger_fast_cached truediv s1 s2 raw side :
  _cached_calibration s1 = _cached_calibration s2 →
  calibrate_trigger_fast truediv s1 raw side
  = calibrate_trigger_fast truediv s2 raw side.
Proof. intros H. unfold calibrate_trigger_fast. by rewrite H. Qed.

Lemma default_holds_left :
  holds_profile default_calibration "left" default_profile.
Proof. repeat split. Qed.

Lemma default_holds_right :
  holds_profile default_calibration "right" default_profile.
Proof. repeat split. Qed.








(** C10.  When the cached calibration is the live calibration dictionary,
    [calibrate_trigger_fast] and [calibrate_trigger] return the same result
    (value or exception) for every raw value and every side. *)
Theorem calibrate_fast_equals_plain truediv self raw side :
  _cached_calibration self = Some (calibration self) →
  calibrate_trigger_fast truediv self raw side
    = calibrate_trigger truediv self raw side.
Proof.
  intros Hc. unfold calibrate_trigger_fast, calibrate_trigger. by rewrite Hc.
Qed.

Lemma calibrate_fast_equals_plain_witness :
  _cached_calibration emulating_app = Some (calibration emulating_app) ∧
  calibrate_trigger_fast py_truediv emulating_app 200 "right"
    = calibrate_trigger py_truediv emulating_app 200 "right".
Proof.
  split; [reflexivity|].
  apply (calibrate_fast_equals_plain py_truediv emulating_app 200 "right").
  reflexivity.
Defined.

(** ** Report decoding *)

Lemma read_button_other data states button k :
  k ≠ name button → read_button data states button !! k = states !! k.
Proof.
  intros Hk. unfold read_button. case_match; [|done]. by rewrite lookup_insert_ne.
Qed.

Lemma foldl_read_button_other data bs states k :
  k ∉ name <$> bs → foldl (read_button data) states bs !! k = states !! k.
Proof.
  revert states. induction bs as [|b bs IH]; intros states Hk; [done|].
  cbn in *. apply not_elem_of_cons in Hk as [Hb Hbs].
  rewrite IH by done. by apply read_button_other.
Qed.

(** Over a table of distinct names the loop leaves, under each name, the
    test of that entry's own byte and mask. *)
Lemma foldl_read_button_lookup data bs states b :
  NoDup (name <$> bs) → b ∈ bs →
  (∀ b', b' ∈ bs → (byte_index b' < length data)%nat) →
  foldl (read_button data) states bs !! name b
  = Some (negb (Z.land (byte_at data (byte_index b)) (mask b) =? 0)).
Proof.
  revert states. induction bs as [|b0 bs IH]; intros states Hnd Hin Hlen.
  { by apply elem_of_nil in Hin. }
  cbn in *. apply NoDup_cons in Hnd as [Hfresh Hnd].
  apply elem_of_cons in Hin as [->|Hin].
  - rewrite foldl_read_button_other by done.
    unfold read_button. specialize (Hlen b0 ltac:(left)).
    apply Nat.ltb_lt in Hlen. rewrite Hlen. by rewrite lookup_insert_eq.
  - apply IH; [done..|]. intros b' Hb'. apply Hlen. by right.
Qed.

Lemma foldl_read_button_dom data bs states k :
  (∀ b', b' ∈ bs → (byte_index b' < length data)%nat) →
  is_Some (foldl (read_button data) states bs !! k)
  ↔ k ∈ name <$> bs ∨ is_Some (states !! k).
Proof.
  revert states. induction bs as [|b0 bs IH]; intros states Hlen; cbn.
  { split; [by right|]. intros [H|H]; [by apply elem_of_nil in H|done]. }
  rewrite IH by (intros b' Hb'; apply Hlen; by right).
  unfold read_button. specialize (Hlen b0 ltac:(left)).
  apply Nat.ltb_lt in Hlen. rewrite Hlen. rewrite elem_of_cons.
  destruct (decide (k = name b0)) as [->|Hne].
  - rewrite lookup_insert_eq. split; [intros _; left; by left | by eauto].
  - rewrite lookup_insert_ne by done. split.
    + intros [H|H]; [left; by right | by right].
    + intros [[H|H]|H]; [done | by left | by right].
Qed.

Lemma buttons_table :
  length buttons = 18%nat ∧ NoDup (name <$> buttons) ∧
  Forall (λ b, byte_index b = 3 ∨ byte_index b = 4 ∨ byte_index b = 5)%nat buttons.
Proof. split; [reflexivity|]. split; compute_done. Qed.

Lemma buttons_in_range (data : list Z) :
  (15 ≤ length data)%nat →
  ∀ b, b ∈ buttons → (byte_index b < length data)%nat.
Proof.
  intros Hlen b Hb. destruct buttons_table as (_ & _ & Hidx).
  rewrite Forall_forall in Hidx. destruct (Hidx b Hb) as [->|[->| ->]]; lia.
Qed.

Lemma decode_report_long (data : list Z) :
  (15 ≤ length data)%nat → ∃ f, decode_report data = Some f.
Proof.
  intros H. unfold decode_report.
  destruct (length data <? 15)%nat eqn:E; [apply Nat.ltb_lt in E; lia|]. eauto.
Qed.

(** C2.  On a report of at least 15 bytes decoding succeeds, the table has
    18 entries over the byte indices 3, 4 and 5, each of its buttons is
    recorded as pressed if and only if [report[byte_index] & mask] is not 0
    and as released if and only if it is 0, and the recorded names are
    exactly those of the table. *)
Theorem buttons_follow_table (data : list Z) :
  (15 ≤ length data)%nat →
  ∃ f, decode_report data = Some f ∧
    length buttons = 18%nat ∧
    (∀ b, b ∈ buttons →
       (byte_index b = 3 ∨ byte_index b = 4 ∨ byte_index b = 5)%nat ∧
       (button_states f !! name b = Some true
          ↔ Z.land (data !!! byte_index b) (mask b) ≠ 0) ∧
       (button_states f !! name b = Some false
          ↔ Z.land (data !!! byte_index b) (mask b) = 0)) ∧
    (∀ k, is_Some (button_states f !! k) ↔ k ∈ name <$> buttons).
Proof.
  intros Hlen. destruct (decode_report_long data Hlen) as [f Hf].
  exists f. split; [done|].
  assert (button_states f = read_buttons data) as ->.
  { unfold decode_report in Hf. case_match; [done|]. by injection Hf as <-. }
  destruct buttons_table as (Hn & Hnd & Hidx). split; [done|]. split.
  - intros b Hb. split; [by apply (proj1 (Forall_forall _ _) Hidx)|].
    unfold read_buttons.
    rewrite (foldl_read_button_lookup data buttons ∅ b Hnd Hb
               (buttons_in_range data Hlen)).
    unfold byte_at.
    destruct (Z.eqb_spec (Z.land (data !!! byte_index b) (mask b)) 0) as [E|E];
      cbn; split; split; congruence.
  - intros k. unfold read_buttons.
    rewrite (foldl_read_button_dom data buttons ∅ k (buttons_in_range data Hlen)).
    rewrite lookup_empty. split; [|by left].
    intros [H|H]; [done|]. by destruct H.
Qed.

Lemma buttons_follow_table_witness :
  ∃ f, decode_report report_B = Some f ∧
       button_states f !! "B" = Some true ∧
       button_states f !! "A" = Some false.
Proof.
  destruct (buttons_follow_table report_B) as (f & Hf & _ & Hb & _).
  { cbn. lia. }
  exists f. split; [exact Hf|]. split.
  - destruct (Hb (mkButtonInfo 3 0x01 "B")) as (_ & Hpressed & _).
    { by apply (list_elem_of_lookup_2 _ 0%nat). }
    apply Hpressed. vm_compute. discriminate.
  - destruct (Hb (mkButtonInfo 3 0x02 "A")) as (_ & _ & Hreleased).
    { by apply (list_elem_of_lookup_2 _ 1%nat). }
    apply Hreleased. vm_compute. reflexivity.
Defined.



(** C4, as the specification states it, fails in its last figure: the
    sample 4095 is normalised to 2047/2048 = 0.99951171875, below 0.999755,
    so it does not round to 0.99976. *)
Lemma full_deflection_is_not_099976 :
  (stick_norm 4095 == 2047 # 2048)%Q ∧ (stick_norm 4095 < 999755 # 1000000)%Q.
Proof. split; reflexivity. Qed.

(** C4 (amended).  On a report of at least 15 bytes the stick samples are
    [x = report[b] | ((report[b+1] & 0x0F) << 8)] and
    [y = (report[b+1] >> 4) | (report[b+2] << 4)] with [b = 6] for the left
    stick and [b = 9] for the right one, each normalised as
    [(raw - 2048) / 2048.0]; so 2048 gives 0 exactly, 0 gives -1, and 4095
    gives 2047/2048 = 0.99951171875. *)
Theorem sticks_decoded (data : list Z) :
  (15 ≤ length data)%nat →
  ∃ f, decode_report data = Some f ∧
    left_stick_x f = spec_stick_x_raw data 6 ∧
    left_stick_y f = spec_stick_y_raw data 6 ∧
    right_stick_x f = spec_stick_x_raw data 9 ∧
    right_stick_y f = spec_stick_y_raw data 9 ∧
    (left_x_norm f == (inject_Z (left_stick_x f) - 2048) / 2048)%Q ∧
    (left_y_norm f == (inject_Z (left_stick_y f) - 2048) / 2048)%Q ∧
    (right_x_norm f == (inject_Z (right_stick_x f) - 2048) / 2048)%Q ∧
    (right_y_norm f == (inject_Z (right_stick_y f) - 2048) / 2048)%Q ∧
    (stick_norm 2048 == 0)%Q ∧
    (stick_norm 0 == -1)%Q ∧
    (stick_norm 4095 == 2047 # 2048)%Q.
Proof.
  intros Hlen. destruct (decode_report_long data Hlen) as [f Hf].
  exists f. split; [done|].
  unfold decode_report in Hf. case_match; [done|]. injection Hf as <-. cbn.
  assert (∀ raw, stick_norm raw == (inject_Z raw - 2048) / 2048)%Q as Hn.
  { intros raw. unfold stick_norm, Z.sub. rewrite inject_Z_plus. reflexivity. }
  repeat split; try apply Hn.
Qed.

Lemma sticks_decoded_witness :
  ∃ f, decode_report report_rest = Some f ∧
       left_stick_x f = 2048 ∧ left_stick_y f = 2048 ∧
       right_stick_x f = 2048 ∧ right_stick_y f = 2048 ∧
       (left_x_norm f == 0)%Q.
Proof.
  destruct (sticks_decoded report_rest)
    as (f & Hf & Hlx & Hly & Hrx & Hry & Hn & _).
  { cbn. lia. }
  exists f. split; [exact Hf|].
  split; [by rewrite Hlx|]. split; [by rewrite Hly|].
  split; [by rewrite Hrx|]. split; [by rewrite Hry|].
  rewrite Hn, Hlx. reflexivity.
Defined.

(** ** The virtual controller *)

Lemma call_gamepad_gamepad c self :
  gamepad (call_gamepad c self) = (λ calls, calls ++ [c]) <$> gamepad self.
Proof. reflexivity. Qed.

Lemma ensure_cached_gamepad self : gamepad (ensure_cached self) = gamepad self.
Proof. unfold ensure_cached. by destruct (_cached_calibration self). Qed.

Lemma ensure_cached_calls c1 c2 self :
  _cached_calibration (ensure_cached (call_gamepad c2 (call_gamepad c1 self)))
  = _cached_calibration (ensure_cached self).
Proof. unfold ensure_cached. cbn. by destruct (_cached_calibration self). Qed.

Lemma foldl_button_calls bs (entries : list (string * XUSB_BUTTON)) self :
  gamepad (foldl (λ self entry,
                    if dict_get bs entry.1 false
                    then call_gamepad (press_button entry.2) self
                    else call_gamepad (release_button entry.2) self)
                 self entries)
  = (λ calls, calls ++ map (λ entry, if dict_get bs entry.1 false
                                     then press_button entry.2
                                     else release_button entry.2) entries)
      <$> gamepad self.
Proof.
  revert self. induction entries as [|e entries IH]; intros self; cbn.
  - destruct (gamepad self); cbn; by rewrite ?app_nil_r.
  - rewrite IH. destruct (dict_get bs e.1 false); cbn;
      destruct (gamepad self); cbn; by rewrite <- ?app_assoc.
Qed.

Lemma update_button_states_gamepad bs self :
  gamepad (update_button_states bs self)
  = (λ calls, calls ++ button_calls bs) <$> gamepad self.
Proof. apply foldl_button_calls. Qed.


(** One update that runs to its end appends the calls of [pushed_calls],
    with 255 for the trigger of a pressed L or R. *)
Lemma update_virtual_controller_calls
    self calls lx ly rx ry lt rt bs lcal rcal :
  gamepad self = Some calls →
  calibrate_trigger_fast py_truediv (ensure_cached self) lt "left" = Return lcal →
  calibrate_trigger_fast py_truediv (ensure_cached self) rt "right" = Return rcal →
  gamepad (update_virtual_controller self lx ly rx ry lt rt bs)
  = Some (calls ++ pushed_calls lx ly rx ry
                     (if dict_get bs "L" false then 255 else lcal)
                     (if dict_get bs "R" false then 255 else rcal) bs).
Proof.
  intros Hg Hl Hr. unfold update_virtual_controller. rewrite Hg.
  rewrite (calibrate_trigger_fast_cached _ _ (ensure_cached self))
    by apply ensure_cached_calls.
  rewrite Hl.
  rewrite (calibrate_trigger_fast_cached _ _ (ensure_cached self))
    by apply ensure_cached_calls.
  rewrite Hr.
  destruct (dict_get bs "L" false), (dict_get bs "R" false);
    rewrite !call_gamepad_gamepad, update_button_states_gamepad,
      ensure_cached_gamepad, !call_gamepad_gamepad, Hg; cbn;
    unfold pushed_calls; by rewrite <- !app_assoc.
Qed.

(** Whether or not the update runs to its end, it starts with the two stick
    calls. *)
Lemma update_virtual_controller_sticks self calls lx ly rx ry lt rt bs :
  gamepad self = Some calls →
  ∃ rest,
    gamepad (update_virtual_controller self lx ly rx ry lt rt bs)
    = Some (calls ++ left_joystick (stick_scaled lx) (stick_scaled ly)
                  :: right_joystick (stick_scaled rx) (stick_scaled ry)
                  :: rest).
Proof.
  intros Hg.
  destruct (calibrate_trigger_fast py_truediv (ensure_cached self) lt "left")
    as [lcal|e] eqn:Hl;
  [destruct (calibrate_trigger_fast py_truediv (ensure_cached self) rt "right")
     as [rcal|e] eqn:Hr|].
  - rewrite (update_virtual_controller_calls _ _ _ _ _ _ _ _ _ _ _ Hg Hl Hr).
    unfold pushed_calls. cbn. eauto.
  - exists []. unfold update_virtual_controller. rewrite Hg.
    rewrite (calibrate_trigger_fast_cached _ _ (ensure_cached self))
      by apply ensure_cached_calls.
    rewrite Hl.
    rewrite (calibrate_trigger_fast_cached _ _ (ensure_cached self))
      by apply ensure_cached_calls.
    rewrite Hr. cbn. rewrite ensure_cached_gamepad. cbn. rewrite Hg. cbn.
    by rewrite <- app_assoc.
  - exists []. unfold update_virtual_controller. rewrite Hg.
    rewrite (calibrate_trigger_fast_cached _ _ (ensure_cached self))
      by apply ensure_cached_calls.
    rewrite Hl. cbn. rewrite ensure_cached_gamepad. cbn. rewrite Hg. cbn.
    by rewrite <- app_assoc.
Qed.

(** Clamping the scaled value at the two ends of the axis is clamping the
    normalised value at -1 and 1 and scaling it. *)
Lemma clamp_scale (x : Q) :
  (Qmax (-32767) (Qmin 32767 (x * 32767)) == Qmax (-1) (Qmin 1 x) * 32767)%Q.
Proof.
  destruct (Qlt_le_dec x 1) as [H1|H1].
  - rewrite (Q.min_r 32767) by lra. rewrite (Q.min_r 1) by lra.
    destruct (Qlt_le_dec x (-1)) as [H2|H2].
    + rewrite !Q.max_l by lra. reflexivity.
    + rewrite !Q.max_r by lra. reflexivity.
  - rewrite (Q.min_l 32767) by lra. rewrite (Q.min_l 1) by lra.
    rewrite !Q.max_r by lra. reflexivity.
Qed.

Lemma stick_scaled_spec x : stick_scaled x = spec_stick_scaled py_int x.
Proof.
  unfold stick_scaled, spec_stick_scaled. apply py_int_comp.
  rewrite py_max_Qmax. rewrite <- clamp_scale.
  apply Q.max_compat; [reflexivity|]. apply py_min_Qmin.
Qed.



(** C8, as the specification states it, fails: the stick sample 2049 is
    normalised to 1/2048, scaled to 15.9995..., and sent as 15, where
    rounding gives 16. *)
Lemma stick_sample_2049_sent_as_15 :
  match gamepad (update_virtual_controller emulating_app
                   (stick_norm 2049) 0 0 0 0 0 ∅) with
  | Some (sent :: _) => sent = left_joystick 15 0
  | _ => False
  end ∧
  spec_stick_scaled py_round (stick_norm 2049) = 16.
Proof. split; vm_compute; reflexivity. Qed.

(** C8 (amended).  For every normalised stick value the value sent on the
    pad's signed 16-bit axis is [int(clamp(norm, -1, 1) * 32767)], truncated
    toward zero and not rounded: every update of a present pad starts with
    the left and the right stick call carrying these values. *)
Theorem stick_scaling_truncates self calls lx ly rx ry lt rt bs :
  gamepad self = Some calls →
  ∃ rest,
    gamepad (update_virtual_controller self lx ly rx ry lt rt bs)
    = Some (calls
            ++ left_joystick (spec_stick_scaled py_int lx)
                             (spec_stick_scaled py_int ly)
            :: right_joystick (spec_stick_scaled py_int rx)
                              (spec_stick_scaled py_int ry)
            :: rest).
Proof.
  intros Hg. rewrite <- !stick_scaled_spec.
  by apply update_virtual_controller_sticks.
Qed.

Lemma stick_scaling_truncates_witness :
  ∃ rest,
    gamepad (update_virtual_controller emulating_app
               (stick_norm 4095) (stick_norm 0) 0 0 110 0 ∅)
    = Some ([]
            ++ left_joystick (spec_stick_scaled py_int (stick_norm 4095))
                             (spec_stick_scaled py_int (stick_norm 0))
            :: right_joystick (spec_stick_scaled py_int 0)
                              (spec_stick_scaled py_int 0)
            :: rest).
Proof.
  apply (stick_scaling_truncates emulating_app []). reflexivity.
Defined.

(** ** The settings file *)






(** ** Exact arithmetic against binary64 *)

Lemma same_result_eq a b : Binary64.same_result a b = true → a = b.
Proof.
  destruct a, b; cbn; try done. intros H. apply Z.eqb_eq in H. by subst.
Qed.

Lemma forallb_seqZ (P : Z → bool) lo n :
  forallb P (seqZ lo n) = true → ∀ z, lo ≤ z < lo + n → P z = true.
Proof.
  intros H z Hz. rewrite forallb_forall in H. apply H.
  apply list_elem_of_In, elem_of_seqZ. lia.
Qed.

(** On binary64 the scenario of C1 gives 125 as well. *)
Lemma binary64_scenario :
  Binary64.calibrate 110 32 190 230 true = Some 125.
Proof. vm_compute. reflexivity. Qed.

(** At the default breakpoints, in either mode, binary64 and exact
    arithmetic calibrate every trigger byte to the same value. *)
Lemma binary64_default_profile raw mode :
  0 ≤ raw ≤ 255 →
  Binary64.calibrate raw 32 190 230 mode
  = Some (spec_calibrate py_int raw (mkProfile 32 190 230 mode)).
Proof.
  intros Hr. apply same_result_eq.
  assert (forallb
            (λ raw, Binary64.same_result
                      (Binary64.calibrate raw 32 190 230 mode)
                      (Some (spec_calibrate py_int raw (mkProfile 32 190 230 mode))))
            (seqZ 0 256) = true) as H.
  { destruct mode; vm_compute; reflexivity. }
  apply (forallb_seqZ _ _ _ H). lia.
Qed.

(** For whole numbers of the trigger byte range, which is what whole-number
    breakpoints leave of [calibrated] and [range_val], the scaling
    [int(calibrated / range_val * 255)] is the same on binary64 and in exact
    arithmetic. *)
Lemma binary64_scaling_whole c r :
  0 ≤ c ≤ 255 → 1 ≤ r ≤ 255 →
  Binary64.int_of
    (PrimFloat.mul (PrimFloat.div (Binary64.of_int c) (Binary64.of_int r)) 255)
  = Some (py_int (inject_Z c / inject_Z r * 255)).
Proof.
  intros Hc Hr. apply same_result_eq.
  assert (forallb
            (λ r, forallb
                    (λ c, Binary64.same_result
                            (Binary64.int_of
                               (PrimFloat.mul
                                  (PrimFloat.div (Binary64.of_int c)
                                     (Binary64.of_int r)) 255))
                            (Some (py_int (inject_Z c / inject_Z r * 255))))
                    (seqZ 0 256))
            (seqZ 1 255) = true) as H.
  { vm_compute. reflexivity. }
  pose proof (forallb_seqZ _ _ _ H r ltac:(lia)) as H'. cbv beta in H'.
  apply (forallb_seqZ _ _ _ H' c). lia.
Qed.

(** Every 12-bit stick sample is normalised and scaled to the same axis
    value on binary64 and in exact arithmetic. *)
Lemma binary64_sticks raw :
  0 ≤ raw ≤ 4095 →
  Binary64.stick_scaled (Binary64.stick_norm raw)
  = Some (stick_scaled (stick_norm raw)).
Proof.
  intros Hr. apply same_result_eq.
  assert (forallb
            (λ raw, Binary64.same_result
                      (Binary64.stick_scaled (Binary64.stick_norm raw))
                      (Some (stick_scaled (stick_norm raw))))
            (seqZ 0 4096) = true) as H.
  { vm_compute. reflexivity. }
  apply (forallb_seqZ _ _ _ H). lia.
Qed.

(** The three samples of C4 on binary64 *)
Lemma binary64_full_deflection :
  Binary64.stick_norm 4095 = 0.99951171875%float ∧
  Binary64.stick_norm 2048 = 0%float ∧
  Binary64.stick_norm 0 = (-1)%float.
Proof. repeat split; vm_compute; reflexivity. Qed.

(** Whole numbers of the byte range subtract exactly, and compare with 0 as
    the integers do. *)
Lemma binary64_sub_whole x y :
  0 ≤ x ≤ 255 → 0 ≤ y ≤ 255 →
  PrimFloat.sub (Binary64.of_int x) (Binary64.of_int y) = Binary64.of_int (x - y).
Proof.
  intros Hx Hy. apply FloatAxioms.Leibniz.eqb_spec.
  assert (forallb
            (λ x, forallb
                    (λ y, PrimFloat.Leibniz.eqb
                            (PrimFloat.sub (Binary64.of_int x) (Binary64.of_int y))
                            (Binary64.of_int (x - y)))
                    (seqZ 0 256))
            (seqZ 0 256) = true) as H.
  { vm_compute. reflexivity. }
  pose proof (forallb_seqZ _ _ _ H x ltac:(lia)) as H'. cbv beta in H'.
  apply (forallb_seqZ _ _ _ H' y). lia.
Qed.

Lemma binary64_sign_whole z :
  -255 ≤ z ≤ 255 →
  PrimFloat.ltb (Binary64.of_int z) 0 = (z <? 0) ∧
  PrimFloat.leb (Binary64.of_int z) 0 = (z <=? 0).
Proof.
  intros Hz.
  assert (forallb
            (λ z, Bool.eqb (PrimFloat.ltb (Binary64.of_int z) 0) (z <? 0)
                  && Bool.eqb (PrimFloat.leb (Binary64.of_int z) 0) (z <=? 0))
            (seqZ (-255) 511) = true) as H.
  { vm_compute. reflexivity. }
  pose proof (forallb_seqZ _ _ _ H z ltac:(lia)) as H'. cbv beta in H'.
  apply andb_prop in H' as [H1 H2].
  split; by apply Bool.eqb_prop.
Qed.

Lemma Qmax_0_whole z : (Qmax 0 (inject_Z z) == inject_Z (Z.max 0 z))%Q.
Proof.
  destruct (Z.max_spec 0 z) as [[Hz ->]|[Hz ->]].
  - apply Q.max_r. rewrite Zlt_Qlt in Hz. change (inject_Z 0) with 0%Q in Hz. lra.
  - apply Q.max_l. rewrite Zle_Qle in Hz. by change (inject_Z 0) with 0%Q in Hz.
Qed.

(** On every profile of whole-number breakpoints in the byte range, and
    every trigger byte, the calibration on binary64 returns what exact
    arithmetic returns. *)
Lemma binary64_whole_profile raw b u m mode :
  0 ≤ raw ≤ 255 → 0 ≤ b ≤ 255 → 0 ≤ u ≤ 255 → 0 ≤ m ≤ 255 →
  Binary64.calibrate raw (Binary64.of_int b) (Binary64.of_int u)
    (Binary64.of_int m) mode
  = Some (spec_calibrate py_int raw (whole_profile b u m mode)).
Proof.
  intros Hraw Hb Hu Hm. unfold Binary64.calibrate.
  set (top := if mode then u else m).
  assert (0 ≤ top ≤ 255) as Htop by (unfold top; destruct mode; lia).
  assert ((if mode then PrimFloat.sub (Binary64.of_int u) (Binary64.of_int b)
           else PrimFloat.sub (Binary64.of_int m) (Binary64.of_int b))
          = Binary64.of_int (top - b)) as ->.
  { unfold top. destruct mode; by apply binary64_sub_whole. }
  rewrite binary64_sub_whole by done.
  destruct (binary64_sign_whole (raw - b) ltac:(lia)) as [-> _].
  destruct (binary64_sign_whole (top - b) ltac:(lia)) as [_ ->].
  assert (selected_range (whole_profile b u m mode) == inject_Z (top - b))%Q as Hrange.
  { unfold selected_range, whole_profile, top. cbn.
    destruct mode; unfold Z.sub; rewrite inject_Z_plus, inject_Z_opp; reflexivity. }
  unfold spec_calibrate.
  destruct (Z.leb_spec (top - b) 0) as [Hle|Hgt].
  - assert (Qleb (selected_range (whole_profile b u m mode)) 0 = true) as ->; [|done].
    apply Qleb_le. rewrite Hrange. rewrite Zle_Qle in Hle. by change (inject_Z 0) with 0%Q in Hle.
  - assert (Qleb (selected_range (whole_profile b u m mode)) 0 = false) as ->.
    { apply Qleb_gt. rewrite Hrange. rewrite Zlt_Qlt in Hgt.
      by change (inject_Z 0) with 0%Q in Hgt. }
    assert ((if raw - b <? 0 then 0%float else Binary64.of_int (raw - b))
            = Binary64.of_int (Z.max 0 (raw - b))) as ->.
    { destruct (Z.ltb_spec (raw - b) 0).
      - by rewrite Z.max_l by lia.
      - by rewrite Z.max_r by lia. }
    rewrite binary64_scaling_whole by lia.
    do 3 f_equal. apply py_int_comp.
    rewrite Hrange. cbn [base whole_profile].
    assert (inject_Z raw - inject_Z b == inject_Z (raw - b))%Q as ->.
    { unfold Z.sub. rewrite inject_Z_plus, inject_Z_opp. reflexivity. }
    by rewrite Qmax_0_whole.
Qed.

(** So the properties of C5 hold bit for bit on binary64 for every valid
    profile of whole-number breakpoints. *)
Lemma binary64_valid_whole_profile b u m mode :
  0 ≤ b → b < u → u ≤ m → m ≤ 255 →
  (∀ r, 0 ≤ r ≤ 255 →
     ∃ v, Binary64.calibrate r (Binary64.of_int b) (Binary64.of_int u)
            (Binary64.of_int m) mode = Some v ∧
          0 ≤ v ≤ 255 ∧ (r ≤ b → v = 0)) ∧
  (∀ r1 r2 v1 v2, 0 ≤ r1 → r1 ≤ r2 → r2 ≤ 255 →
     Binary64.calibrate r1 (Binary64.of_int b) (Binary64.of_int u)
       (Binary64.of_int m) mode = Some v1 →
     Binary64.calibrate r2 (Binary64.of_int b) (Binary64.of_int u)
       (Binary64.of_int m) mode = Some v2 →
     v1 ≤ v2).
Proof.
  intros Hb Hbu Hum Hm. split.
  - intros r Hr. eexists. split; [apply binary64_whole_profile; lia|].
    split; [apply spec_calibrate_bounds|].
    intros Hle. apply spec_calibrate_below_base. cbn. by rewrite <- Zle_Qle.
  - intros r1 r2 v1 v2 H1 H12 H2.
    rewrite !binary64_whole_profile by lia.
    intros [= <-] [= <-]. by apply spec_calibrate_mono.
Qed.
